(** * FlowMind architecture diagram generator

    A shallow embedding of [scripts/generate-architecture-diagram.py].

    The script is a straight-line sequence of drawing calls against one
    matplotlib [Axes], followed by two [plt.savefig] calls and two [print]
    calls.  It is embedded as a program in a state-and-exception monad over
    a [World] that holds the current figure, the file system and standard
    output.

    Numbers.  Python [float]s are IEEE-754 binary64 values; they are embedded
    as Rocq's primitive [float]s, whose operations are the same binary64
    operations.  Integer literals used as coordinates ([1], [2], [16] ...)
    are embedded as the floats of the same value, which is what matplotlib
    converts them to; integer keyword arguments that are never mixed with
    floats ([fontsize], [linewidth], [shrinkA], [dpi] ...) are kept in [Z].

    Strings.  Python [str] values are embedded as Rocq [string]s holding
    their UTF-8 encoding; the escape [\n] is the byte 10.

    The library.  What matplotlib does inside a call is not part of the
    script.  Three places where it shows are made explicit below: an image
    file holds the request that produced it, not its bytes ([Content]);
    adding a connector whose end points are not in view may raise, as the
    world decides ([path_error], [add_patch]); and standard output is a
    stream that can encode what is printed ([World]). *)

From Stdlib Require Import Floats ZArith QArith Ascii String.
From stdpp Require Import gmap strings list.

Set Warnings "-inexact-float".

(* ================================================================== *)
(** * Artists: what gets drawn *)
(* ================================================================== *)

(** A point in data coordinates, as the tuples [(x, y)] of the script. *)
Abbreviation point := (float * float)%type.

(** [matplotlib.patches.FancyBboxPatch((x, y), width, height, boxstyle=...,
    facecolor=..., edgecolor=..., linewidth=...)]. *)
Record FancyBboxPatch := mkFancyBboxPatch {
  xy : point;
  width : float;
  height : float;
  boxstyle : string;
  facecolor : string;
  edgecolor : string;
  linewidth : Z
}.

(** [matplotlib.patches.ConnectionPatch(xyA, xyB, coordsA, coordsB,
    arrowstyle=..., shrinkA=..., shrinkB=..., mutation_scale=..., fc=...,
    ec=..., alpha=...)]. *)
Record ConnectionPatch := mkConnectionPatch {
  xyA : point;
  xyB : point;
  coordsA : string;
  coordsB : string;
  arrowstyle : string;
  shrinkA : Z;
  shrinkB : Z;
  mutation_scale : Z;
  fc : string;
  ec : string;
  alpha : float
}.

(** The [bbox=dict(boxstyle=..., facecolor=..., edgecolor=...)] keyword of
    [ax.text]. *)
Record BboxProps := mkBboxProps {
  bbox_boxstyle : string;
  bbox_facecolor : string;
  bbox_edgecolor : string
}.

(** One [ax.text(x, y, s, ha=..., va=..., fontsize=..., weight=...,
    color=..., wrap=..., bbox=...)] call.  A keyword the script does not
    always pass is an [option]; [None] is "not passed". *)
Record Text := mkText {
  text_x : float;
  text_y : float;
  text_s : string;
  ha : string;
  va : string;
  fontsize : Z;
  weight : option string;
  color : option string;
  wrap : bool;
  bbox : option BboxProps
}.

(** The children of an [Axes], in the order they were added. *)
Inductive Artist :=
| Box (p : FancyBboxPatch)
| Arrow (c : ConnectionPatch)
| Label (t : Text).

(* ================================================================== *)
(** * Figure, file system and world *)
(* ================================================================== *)

Record Axes := mkAxes {
  xlim : point;
  ylim : point;
  axison : bool;
  children : list Artist
}.

Record Figure := mkFigure {
  figsize : point;
  axes : Axes;
  tight : bool          (* has [tight_layout] been applied? *)
}.

(** Keyword arguments of [plt.savefig]. *)
Record SaveOpts := mkSaveOpts {
  format : option string;
  dpi : option Z;
  bbox_inches : option string;
  save_facecolor : option string;
  save_edgecolor : option string
}.

(** What a file holds.  The bytes of an exported image are produced by
    matplotlib's backends, which are outside the script; an image file is
    therefore recorded as the request that produced it: the output format,
    the [savefig] keywords and the figure that was rendered.  Equal requests
    do not mean equal bytes: the SVG backend also writes a creation date and
    element ids drawn from a salt that is fresh in every run, and nothing
    below speaks about those bytes. *)
Inductive Content :=
| Image (fmt : string) (o : SaveOpts) (f : Figure)
| Bytes (data : string).

(** An entry of the file system: a directory or a regular file, each with
    a write permission. *)
Inductive Entry :=
| Dir (writable : bool)
| File (writable : bool) (c : Content).

(** The exceptions the script can raise. *)
Inductive exn :=
| KeyError (key : string)
| StopIteration
| FileNotFoundError (path : string)
| NotADirectoryError (path : string)
| IsADirectoryError (path : string)
| PermissionError (path : string).

(** The world a run acts on.

    [stdout] holds the lines printed so far; standard output is taken to be
    a text stream that can encode every line it is given (UTF-8), so a
    stream with a narrower encoding is outside this model.

    [path_error] stands for the part of matplotlib that builds the path of
    a connector when the connector is added to the axes.  The path is
    computed in display coordinates; an end point that is NaN, infinite or
    so large that it overflows there makes matplotlib raise (StopIteration,
    from the empty path) and add nothing.  Where exactly that happens is
    decided inside the library, so it is a component of the world:
    [path_error w a b] is [None] when matplotlib builds the path from [a]
    to [b] and [Some e] when it raises [e].  It is consulted only for end
    points that are not in view (see [add_patch]). *)
Record World := mkWorld {
  figure : Figure;
  fs : gmap string Entry;
  stdout : list string;
  path_error : point -> point -> option exn
}.

(* ================================================================== *)
(** * The state-and-exception monad *)
(* ================================================================== *)

(** A computation runs on a world and returns the world it leaves behind
    together with either the exception it raised or its value.  The world
    is returned in both cases: a raised exception does not undo what was
    done before it. *)
Definition M (A : Type) : Type := World -> World * (exn + A).

Definition ret {A} (a : A) : M A := fun w => (w, inr a).

Definition raise {A} (e : exn) : M A := fun w => (w, inl e).

Definition bind {A B} (m : M A) (k : A -> M B) : M B :=
  fun w =>
    match m w with
    | (w', inl e) => (w', inl e)
    | (w', inr a) => k a w'
    end.

Declare Scope py_scope.
Delimit Scope py_scope with py.
Notation "x <- m ;; k" := (bind m (fun x => k))
  (at level 100, m at next level, right associativity) : py_scope.
Notation "m ;; k" := (bind m (fun _ => k))
  (at level 100, right associativity) : py_scope.

Definition modify (f : World -> World) : M unit := fun w => (f w, inr tt).

(** Has the computation finished without an exception? *)
Definition succeeded {A} (r : World * (exn + A)) : bool :=
  match snd r with inr _ => true | inl _ => false end.

(* ================================================================== *)
(** * The matplotlib and built-in operations the script calls *)
(* ================================================================== *)

Definition set_axes (f : Axes -> Axes) (w : World) : World :=
  let fg := figure w in
  mkWorld (mkFigure (figsize fg) (f (axes fg)) (tight fg)) (fs w) (stdout w)
          (path_error w).

(** [fig, ax = plt.subplots(1, 1, figsize=...)]: a fresh figure with one
    empty axes becomes the current figure. *)
Definition subplots (size : point) : M unit :=
  modify (fun w =>
    mkWorld (mkFigure size (mkAxes (0, 1)%float (0, 1)%float true []) false)
            (fs w) (stdout w) (path_error w)).

(** [ax.set_xlim(lo, hi)] and [ax.set_ylim(lo, hi)]. *)
Definition set_xlim (lo hi : float) : M unit :=
  modify (set_axes (fun a => mkAxes (lo, hi) (ylim a) (axison a) (children a))).

Definition set_ylim (lo hi : float) : M unit :=
  modify (set_axes (fun a => mkAxes (xlim a) (lo, hi) (axison a) (children a))).

(** [ax.axis('off')]. *)
Definition axis_off : M unit :=
  modify (set_axes (fun a => mkAxes (xlim a) (ylim a) false (children a))).

(** The world with the artists [l] appended to the children of the axes. *)
Definition append_children (l : list Artist) (w : World) : World :=
  set_axes (fun ax =>
    mkAxes (xlim ax) (ylim ax) (axison ax) (children ax ++ l)) w.

(** Appending one artist to the axes: the common effect of [ax.add_patch]
    and [ax.text]. *)
Definition add_artist (a : Artist) : M unit := modify (append_children [a]).

(** The coordinate [v] lies within limits of ordinary size: both limits
    between -10^6 and 10^6 and at least 10^-6 apart.  Every comparison is
    false on NaN. *)
Definition spans (lim : point) (v : float) : bool :=
  (PrimFloat.leb (-1000000) (fst lim) && PrimFloat.leb (snd lim) 1000000
   && PrimFloat.leb (fst lim + 0.000001) (snd lim)
   && PrimFloat.leb (fst lim) v && PrimFloat.leb v (snd lim))%float.

(** The point is in view: within the limits of the axes, themselves of
    ordinary size.  Such a point has finite display coordinates inside the
    axes rectangle. *)
Definition in_view (ax : Axes) (p : point) : bool :=
  spans (xlim ax) (fst p) && spans (ylim ax) (snd p).

(** [ax.add_patch(p)].  A rectangle is appended as it is.  For a connector
    matplotlib first builds the path between the two end points: when both
    are in view it does so and appends the connector; otherwise the outcome
    is the one the world gives, and a raised exception leaves the axes
    unchanged. *)
Definition add_patch (a : Artist) : M unit :=
  fun w =>
    match a with
    | Arrow c =>
        if in_view (axes (figure w)) (xyA c) && in_view (axes (figure w)) (xyB c)
        then add_artist a w
        else match path_error w (xyA c) (xyB c) with
             | None => add_artist a w
             | Some e => (w, inl e)
             end
    | _ => add_artist a w
    end.

(** [ax.text(x, y, s, **kwargs)]. *)
Definition ax_text (t : Text) : M unit := add_artist (Label t).

(** [d[key]] on a dict with string keys: [KeyError] when the key is absent. *)
Definition getitem (d : gmap string string) (key : string) : M string :=
  match d !! key with
  | Some v => ret v
  | None => raise (KeyError key)
  end.

(** [plt.tight_layout()]. *)
Definition tight_layout : M unit :=
  modify (fun w =>
    let fg := figure w in
    mkWorld (mkFigure (figsize fg) (axes fg) true) (fs w) (stdout w)
            (path_error w)).

(** [print(s)], on a standard output that can encode [s]. *)
Definition print (s : string) : M unit :=
  modify (fun w =>
    mkWorld (figure w) (fs w) (stdout w ++ [s]) (path_error w)).

(** ** Paths *)

(** Split a string at the last occurrence of a character. *)
Fixpoint rsplit (c : Ascii.ascii) (s : string) : option (string * string) :=
  match s with
  | EmptyString => None
  | String a r =>
      match rsplit c r with
      | Some (h, t) => Some (String a h, t)
      | None => if Ascii.eqb a c then Some (EmptyString, r) else None
      end
  end.

(** [os.path.dirname]: the empty string stands for the working directory. *)
Definition dirname (p : string) : string :=
  match rsplit "/"%char p with Some (h, _) => h | None => "" end.

(** The file name extension, from which [savefig] takes the output format
    when no [format] keyword is given. *)
Definition extension (p : string) : string :=
  match rsplit "."%char p with Some (_, t) => t | None => "" end.

(** Opening [p] for writing: the parent must be a directory; an existing
    regular file must be writable; a new file needs a writable parent. *)
Definition open_for_writing (files : gmap string Entry) (p : string) : option exn :=
  match files !! dirname p with
  | None => Some (FileNotFoundError p)
  | Some (File _ _) => Some (NotADirectoryError p)
  | Some (Dir dw) =>
      match files !! p with
      | Some (Dir _) => Some (IsADirectoryError p)
      | Some (File fw _) => if fw then None else Some (PermissionError p)
      | None => if dw then None else Some (PermissionError p)
      end
  end.

(** [plt.savefig(fname, **kwargs)]: renders the current figure into
    [fname], or raises the error of the failed open and leaves the file
    system as it was. *)
Definition savefig (fname : string) (o : SaveOpts) : M unit :=
  fun w =>
    match open_for_writing (fs w) fname with
    | Some e => (w, inl e)
    | None =>
        let fmt := default (extension fname) (format o) in
        (mkWorld (figure w)
                 (<[fname := File true (Image fmt o (figure w))]> (fs w))
                 (stdout w) (path_error w),
         inr tt)
    end.

(* ================================================================== *)
(** * The script *)
(* ================================================================== *)

Section Script.

Local Open Scope float_scope.
Local Open Scope py_scope.

(** The line feed of the [\n] escapes. *)
Definition nl : string := String "010"%char EmptyString.

(** [colors = {...}]: the style mapping.  It is never modified. *)
Definition colors : gmap string string :=
  list_to_map [
    ("frontend", "#E8F4FD");
    ("frontend_border", "#1976D2");
    ("state", "#FFF3E0");
    ("state_border", "#F57C00");
    ("api", "#E8F5E8");
    ("api_border", "#388E3C");
    ("ai", "#F3E5F5");
    ("ai_border", "#7B1FA2");
    ("data", "#FFF8E1");
    ("data_border", "#FBC02D");
    ("arrow", "#666666")
  ].

(** [def create_component(x, y, width, height, text, color_key, ax,
    fontsize=9)].  The [ax] argument is the axes of the world.  Python
    evaluates the arguments of [FancyBboxPatch(...)] left to right, so both
    [colors[...]] lookups happen before the patch is built and before
    [ax.add_patch]. *)
Definition create_component (x y width height : float)
    (text color_key : string) (fontsize : Z) : M unit :=
  facecolor <- getitem colors color_key ;;
  edgecolor <- getitem colors (color_key +:+ "_border") ;;
  let box :=
    mkFancyBboxPatch (x, y) width height "round,pad=0.05"
                     facecolor edgecolor 2 in
  add_patch (Box box) ;;
  ax_text (mkText (x + width / 2) (y + height / 2) text
                  "center" "center" fontsize (Some "bold") None true None).

(** [def create_arrow(start, end, ax)]. *)
Definition create_arrow (start end_ : point) : M unit :=
  fc <- getitem colors "arrow" ;;
  ec <- getitem colors "arrow" ;;
  let arrow :=
    mkConnectionPatch start end_ "data" "data" "->" 5 5 20 fc ec 0.7 in
  add_patch (Arrow arrow).

Definition frontend_y : float := 9.5.
Definition state_y : float := 7.5.
Definition api_y : float := 5.5.
Definition ai_y : float := 3.5.
Definition data_y : float := 1.5.

Definition features_text : string :=
  nl +:+ "🚀 Key Features:" +:+ nl
  +:+ "• Real-time streaming responses" +:+ nl
  +:+ "• Semantic search with embeddings  " +:+ nl
  +:+ "• HyDE query enhancement" +:+ nl
  +:+ "• Course-specific conversations" +:+ nl
  +:+ "• Two-column expandable layout" +:+ nl
  +:+ "• Markdown export functionality" +:+ nl.

(** The drawing part of the module top level (lines 12 to 158). *)
Definition draw : M unit :=
  (* Set up the figure *)
  subplots (16, 12) ;;
  set_xlim 0 16 ;;
  set_ylim 0 12 ;;
  axis_off ;;
  (* Title *)
  ax_text (mkText 8 11.5 "FlowMind Architecture Flow" "center" "center" 20
                  (Some "bold") (Some "#2D3748") false None) ;;
  (* Layer 1: Frontend Components (Top) *)
  create_component 1 frontend_y 2 1 ("🎨 User Interface" +:+ nl +:+ "ChatInterface") "frontend" 9 ;;
  create_component 3.5 frontend_y 2 1 ("🏠 Welcome" +:+ nl +:+ "Screen") "frontend" 9 ;;
  create_component 6 frontend_y 2 1 ("📚 Course" +:+ nl +:+ "Selector") "frontend" 9 ;;
  create_component 8.5 frontend_y 2 1 ("💭 Messages" +:+ nl +:+ "Container") "frontend" 9 ;;
  create_component 11 frontend_y 2 1 ("📋 Message" +:+ nl +:+ "Detail Panel") "frontend" 9 ;;
  create_component 13.5 frontend_y 2 1 ("⌨️ Chat Input" +:+ nl +:+ "& Header") "frontend" 9 ;;
  (* Layer 2: State Management *)
  create_component 7 state_y 2.5 1 ("🗃️ Zustand Store" +:+ nl +:+ "Conversation State") "state" 9 ;;
  (* Layer 3: API Layer *)
  create_component 2 api_y 2.5 1 ("🔌 Chat API" +:+ nl +:+ "/api/chat") "api" 9 ;;
  create_component 5.5 api_y 2.5 1 ("🧠 RAG System" +:+ nl +:+ "Retrieval Logic") "api" 9 ;;
  create_component 9 api_y 2.5 1 ("💾 Local RAG" +:+ nl +:+ "Fallback") "api" 9 ;;
  create_component 12 api_y 2.5 1 ("🔍 Qdrant" +:+ nl +:+ "Vector DB") "api" 9 ;;
  (* Layer 4: AI Services *)
  create_component 3 ai_y 2.5 1 ("🤖 OpenAI API" +:+ nl +:+ "GPT-4o-mini") "ai" 9 ;;
  create_component 6.5 ai_y 2.5 1 ("📊 Embeddings" +:+ nl +:+ "text-embedding") "ai" 9 ;;
  create_component 10 ai_y 2.5 1 ("📝 HyDE System" +:+ nl +:+ "Query Enhancement") "ai" 9 ;;
  (* Layer 5: Data Layer *)
  create_component 2 data_y 2 1 ("📹 VTT" +:+ nl +:+ "Transcripts") "data" 9 ;;
  create_component 4.5 data_y 2 1 ("📦 Content" +:+ nl +:+ "Chunks") "data" 9 ;;
  create_component 7 data_y 2 1 ("🗂️ Vector Store" +:+ nl +:+ "Embeddings") "data" 9 ;;
  create_component 9.5 data_y 2 1 ("📋 Metadata" +:+ nl +:+ "Timestamps") "data" 9 ;;
  create_component 12 data_y 2.5 1 ("🎯 Search Results" +:+ nl +:+ "Relevance Scoring") "data" 9 ;;
  (* Frontend to State *)
  create_arrow (2, frontend_y) (8, state_y + 1) ;;
  create_arrow (7, frontend_y) (8, state_y + 1) ;;
  create_arrow (9.5, frontend_y) (8.5, state_y + 1) ;;
  (* Frontend to API *)
  create_arrow (2, frontend_y) (3, api_y + 1) ;;
  create_arrow (14.5, frontend_y) (3.5, api_y + 1) ;;
  (* State to API *)
  create_arrow (8, state_y) (6.5, api_y + 1) ;;
  (* API Internal Flow *)
  create_arrow (3.5, api_y) (6.5, api_y + 0.5) ;;
  create_arrow (7, api_y) (10, api_y + 0.5) ;;
  create_arrow (8, api_y) (13, api_y + 0.5) ;;
  (* API to AI *)
  create_arrow (3.5, api_y) (4, ai_y + 1) ;;
  create_arrow (6.5, api_y) (7.5, ai_y + 1) ;;
  create_arrow (7, api_y) (11, ai_y + 1) ;;
  (* Data Processing Flow *)
  create_arrow (3, data_y + 1) (5.5, data_y + 1) ;;
  create_arrow (5.5, data_y + 1) (8, data_y + 1) ;;
  create_arrow (8, data_y + 1) (10.5, data_y + 1) ;;
  create_arrow (10, data_y + 1) (13, data_y + 1) ;;
  (* AI to Data *)
  create_arrow (7.5, ai_y) (8, data_y + 1) ;;
  create_arrow (11, ai_y) (13, data_y + 1) ;;
  (* Return flows (dotted) *)
  create_arrow (8, data_y + 1) (6.5, api_y) ;;
  create_arrow (4, ai_y) (3, api_y) ;;
  (* Add layer labels *)
  c <- getitem colors "frontend_border" ;;
  ax_text (mkText 0.2 (frontend_y + 0.5) ("Frontend" +:+ nl +:+ "Layer") "left" "center" 10
                  (Some "bold") (Some c) false None) ;;
  c <- getitem colors "state_border" ;;
  ax_text (mkText 0.2 (state_y + 0.5) ("State" +:+ nl +:+ "Layer") "left" "center" 10
                  (Some "bold") (Some c) false None) ;;
  c <- getitem colors "api_border" ;;
  ax_text (mkText 0.2 (api_y + 0.5) ("API" +:+ nl +:+ "Layer") "left" "center" 10
                  (Some "bold") (Some c) false None) ;;
  c <- getitem colors "ai_border" ;;
  ax_text (mkText 0.2 (ai_y + 0.5) ("AI" +:+ nl +:+ "Services") "left" "center" 10
                  (Some "bold") (Some c) false None) ;;
  c <- getitem colors "data_border" ;;
  ax_text (mkText 0.2 (data_y + 0.5) ("Data" +:+ nl +:+ "Layer") "left" "center" 10
                  (Some "bold") (Some c) false None) ;;
  (* Add key features text *)
  ax_text (mkText 0.5 0.5 features_text "left" "bottom" 8 None None false
                  (Some (mkBboxProps "round,pad=0.3" "#F7FAFC" "#E2E8F0"))).

Definition png_path : string := "public/architecture-diagram.png".
Definition svg_path : string := "public/architecture-diagram.svg".

Definition png_opts : SaveOpts :=
  mkSaveOpts None (Some 300%Z) (Some "tight") (Some "white") (Some "none").
Definition svg_opts : SaveOpts :=
  mkSaveOpts (Some "svg") None (Some "tight") (Some "white") (Some "none").

(** The export part of the module top level (lines 160 to 168). *)
Definition export : M unit :=
  tight_layout ;;
  savefig png_path png_opts ;;
  savefig svg_path svg_opts ;;
  print "✅ Architecture diagram generated successfully!" ;;
  print "📁 Saved as: public/architecture-diagram.png & .svg".

(** The whole module top level. *)
Definition main : M unit := draw ;; export.

End Script.

(* ================================================================== *)
(** * Vocabulary of the properties *)
(* ================================================================== *)

(** The rounded rectangles among a list of artists, in drawing order. *)
Fixpoint boxes (l : list Artist) : list FancyBboxPatch :=
  match l with
  | [] => []
  | Box p :: r => p :: boxes r
  | _ :: r => boxes r
  end.

(** The connector arrows among a list of artists, in drawing order. *)
Fixpoint arrows (l : list Artist) : list ConnectionPatch :=
  match l with
  | [] => []
  | Arrow c :: r => c :: arrows r
  | _ :: r => arrows r
  end.

(** The rectangles filled with the colour that [colors] gives to [key]. *)
Definition boxes_of_layer (key : string) (l : list Artist) : list FancyBboxPatch :=
  List.filter (fun p => bool_decide (colors !! key = Some (facecolor p))) (boxes l).

(** The artists of the axes of the world a run leaves behind. *)
Definition drawn {A} (r : World * (exn + A)) : list Artist :=
  children (axes (figure (fst r))).

(** The rectangle and the label one [create_component] call draws. *)
Definition component_box (x y width height : float) (fill border : string) : Artist :=
  Box (mkFancyBboxPatch (x, y) width height "round,pad=0.05" fill border 2).

Definition component_label (x y width height : float) (text : string) (fontsize : Z) : Artist :=
  Label (mkText (x + width / 2)%float (y + height / 2)%float text
                "center" "center" fontsize (Some "bold") None true None).

(** The five node styles of the diagram. *)
Definition style_keys : list string := ["frontend"; "state"; "api"; "ai"; "data"].

(** Each layer with the height at which the script places it. *)
Definition layers : list (string * float) :=
  [("frontend", frontend_y); ("state", state_y); ("api", api_y);
   ("ai", ai_y); ("data", data_y)].

(** The comparisons [a <= b] and [a > b] as Python evaluates them on floats. *)
Definition py_le (a b : float) : Prop := PrimFloat.leb a b = true.
Definition py_gt (a b : float) : Prop := PrimFloat.ltb b a = true.

(** The node lies within the limits of the axes, with the sums and the
    comparisons computed in binary64 as Python would. *)
Definition in_extent (ax : Axes) (p : FancyBboxPatch) : Prop :=
  let '(x, y) := xy p in
  py_le (fst (xlim ax)) x /\ py_le (fst (ylim ax)) y /\
  py_le (x + width p)%float (snd (xlim ax)) /\
  py_le (y + height p)%float (snd (ylim ax)).

(** The rational number a finite float denotes. *)
Definition float_value (f : float) : option Q :=
  match Prim2SF f with
  | S754_zero _ => Some 0%Q
  | S754_finite s m e =>
      let v := (inject_Z (Z.pos m) * Qpower 2 e)%Q in
      Some (if s then (- v)%Q else v)
  | _ => None
  end.

(** The node lies within [0,16] x [0,12], with the coordinates read as the
    rationals they denote and the sums taken exactly. *)
Definition in_extent_exact (p : FancyBboxPatch) : Prop :=
  match float_value (fst (xy p)), float_value (snd (xy p)),
        float_value (width p), float_value (height p) with
  | Some x, Some y, Some w, Some h =>
      (0 <= x /\ 0 <= y /\ x + w <= 16 /\ y + h <= 12)%Q
  | _, _, _, _ => False
  end.

(** A world with nothing drawn, no file and no output, in which matplotlib
    raises StopIteration for every connector that is not in view. *)
Definition blank : World :=
  mkWorld (mkFigure (0, 0)%float (mkAxes (0, 1)%float (0, 1)%float true []) false)
          ∅ [] (fun _ _ => Some StopIteration).

(** The figure the drawing part builds. *)
Definition diagram : Figure := figure (fst (draw blank)).

(** The same figure once [tight_layout] has been applied: what is exported. *)
Definition exported : Figure := mkFigure (figsize diagram) (axes diagram) true.

Definition png_file : Entry := File true (Image "png" png_opts exported).
Definition svg_file : Entry := File true (Image "svg" svg_opts exported).

(** Is there an image file at path [p]? *)
Definition is_image (files : gmap string Entry) (p : string) : bool :=
  match files !! p with
  | Some (File _ (Image _ _ _)) => true
  | _ => false
  end.

(** The three ways a run can end. *)
Inductive Outcome :=
| NothingWritten (e : exn)
| OnlyPng (e : exn)
| BothWritten.

(** The outcome is decided by the file system the run starts from. *)
Definition outcome (files : gmap string Entry) : Outcome :=
  match open_for_writing files png_path with
  | Some e => NothingWritten e
  | None =>
      match open_for_writing files svg_path with
      | Some e => OnlyPng e
      | None => BothWritten
      end
  end.

(** After a run from [w], both image files are there or neither is. *)
Definition all_or_nothing (w : World) : Prop :=
  let files := fs (fst (main w)) in
  is_image files png_path = is_image files svg_path.

(** A working directory that holds a writable, empty [public] directory. *)
Definition world_ready : World :=
  mkWorld (figure blank) (<["public" := Dir true]> ∅) [] (path_error blank).

(** The same, with a directory sitting at the path of the SVG file. *)
Definition world_svg_blocked : World :=
  mkWorld (figure blank)
          (<[svg_path := Dir true]> (<["public" := Dir true]> ∅)) []
          (path_error blank).

(* ================================================================== *)
(** * Vocabulary of the further properties *)
(* ================================================================== *)

(** The text labels among a list of artists, in drawing order. *)
Fixpoint labels (l : list Artist) : list Text :=
  match l with
  | [] => []
  | Label t :: r => t :: labels r
  | _ :: r => labels r
  end.

(** Each rectangle that is immediately followed by a text, with that text. *)
Fixpoint captioned (l : list Artist) : list (FancyBboxPatch * Text) :=
  match l with
  | [] => []
  | a :: r =>
      match a, r with
      | Box p, Label t :: _ => (p, t) :: captioned r
      | _, _ => captioned r
      end
  end.

(** The corners [(x0, y0, x1, y1)] of a node as exact rationals. *)
Definition rect_exact (p : FancyBboxPatch) : option (Q * Q * Q * Q) :=
  match float_value (fst (xy p)), float_value (snd (xy p)),
        float_value (width p), float_value (height p) with
  | Some x, Some y, Some w, Some h => Some (x, y, x + w, y + h)%Q
  | _, _, _, _ => None
  end.

(** The text is anchored at the exact centre of the rectangle and centred
    on its anchor. *)
Definition centred (p : FancyBboxPatch) (t : Text) : bool :=
  match rect_exact p, float_value (text_x t), float_value (text_y t) with
  | Some (x0, y0, x1, y1), Some tx, Some ty =>
      Qeq_bool (tx + tx) (x0 + x1) && Qeq_bool (ty + ty) (y0 + y1)
      && bool_decide (ha t = "center") && bool_decide (va t = "center")
  | _, _, _ => false
  end.

(** Two nodes keep their distance: a gap of at least 1/2 between them
    horizontally, or of at least 1 vertically. *)
Definition separated (p q : FancyBboxPatch) : bool :=
  match rect_exact p, rect_exact q with
  | Some (px0, py0, px1, py1), Some (qx0, qy0, qx1, qy1) =>
      Qle_bool (px1 + (1 # 2)) qx0 || Qle_bool (qx1 + (1 # 2)) px0
      || Qle_bool (py1 + 1) qy0 || Qle_bool (qy1 + 1) py0
  | _, _ => false
  end.

(** The point lies on the node: inside its rectangle or on its border. *)
Definition touches (pt : point) (p : FancyBboxPatch) : bool :=
  match float_value (fst pt), float_value (snd pt), rect_exact p with
  | Some x, Some y, Some (x0, y0, x1, y1) =>
      Qle_bool x0 x && Qle_bool x x1 && Qle_bool y0 y && Qle_bool y y1
  | _, _, _ => false
  end.

(** The positions, in drawing order, of the nodes a point lies on. *)
Fixpoint touching (pt : point) (nodes : list FancyBboxPatch) (i : nat) : list nat :=
  match nodes with
  | [] => []
  | p :: r => (if touches pt p then [i] else []) ++ touching pt r (S i)
  end.

(** The two nodes a connector joins, when each of its ends lies on exactly
    one node. *)
Definition joins (nodes : list FancyBboxPatch) (c : ConnectionPatch) : option (nat * nat) :=
  match touching (xyA c) nodes 0, touching (xyB c) nodes 0 with
  | [i], [j] => Some (i, j)
  | _, _ => None
  end.

(** The style key whose fill colour a node carries. *)
Definition layer_of (p : FancyBboxPatch) : option string :=
  List.find (fun key => bool_decide (colors !! key = Some (facecolor p))) style_keys.

(** The layers a connector leads from and to. *)
Definition flow (nodes : list FancyBboxPatch) (c : ConnectionPatch) : option (string * string) :=
  match joins nodes c with
  | Some (i, j) =>
      match nodes !! i ≫= layer_of, nodes !! j ≫= layer_of with
      | Some a, Some b => Some (a, b)
      | _, _ => None
      end
  | None => None
  end.

(** The texts drawn in the border colour of the layer [key]. *)
Definition captions_of_layer (key : string) (l : list Artist) : list Text :=
  List.filter (fun t => bool_decide (is_Some (color t) /\
                                     color t = colors !! (key +:+ "_border")))
              (labels l).


(* ================================================================== *)
(** * The style mapping *)
(* ================================================================== *)

(** The entries of [colors], one by one. *)
Lemma colors_lookup_Some (k v : string) :
  colors !! k = Some v ->
  (k, v) ∈ [("frontend", "#E8F4FD"); ("frontend_border", "#1976D2");
            ("state", "#FFF3E0"); ("state_border", "#F57C00");
            ("api", "#E8F5E8"); ("api_border", "#388E3C");
            ("ai", "#F3E5F5"); ("ai_border", "#7B1FA2");
            ("data", "#FFF8E1"); ("data_border", "#FBC02D");
            ("arrow", "#666666")].
Proof.
  unfold colors. intros H.
  apply elem_of_list_to_map_2 in H. exact H.
Qed.

(** A key that has both a fill and a border entry is a style key. *)
Lemma paired_key_is_style_key (k : string) :
  is_Some (colors !! k) -> is_Some (colors !! (k +:+ "_border")) ->
  k ∈ style_keys.
Proof.
  intros [v Hv] Hb. apply colors_lookup_Some in Hv.
  unfold style_keys.
  repeat (apply elem_of_cons in Hv as [Hv | Hv];
          [ injection Hv as -> _;
            first [ solve [repeat first [apply list_elem_of_here
                                        | apply list_elem_of_further]]
                  | exfalso; vm_compute in Hb; destruct Hb as [? Hb];
                    discriminate Hb ]
          | ]).
  apply elem_of_nil in Hv. destruct Hv.
Qed.

(** Every style key has both entries. *)
Lemma style_key_is_paired (k : string) :
  k ∈ style_keys ->
  is_Some (colors !! k) /\ is_Some (colors !! (k +:+ "_border")).
Proof.
  unfold style_keys. intros H.
  repeat (apply elem_of_cons in H as [-> | H];
          [ split; vm_compute; eauto | ]).
  apply elem_of_nil in H. destruct H.
Qed.

(* ================================================================== *)
(** * The two helpers *)
(* ================================================================== *)

Lemma append_children_twice (l1 l2 : list Artist) (w : World) :
  append_children l2 (append_children l1 w) = append_children (l1 ++ l2) w.
Proof.
  unfold append_children, set_axes. simpl. by rewrite <- app_assoc.
Qed.

Section CreateComponent.

Variables (x y width height : float) (text key : string) (fontsize : Z).
Variable w : World.

(** First lookup fails: [KeyError] on the key, nothing drawn. *)
Lemma create_component_no_fill :
  colors !! key = None ->
  create_component x y width height text key fontsize w = (w, inl (KeyError key)).
Proof.
  intros H. unfold create_component, bind, getitem. by rewrite H.
Qed.

(** Second lookup fails: [KeyError] on the border key, nothing drawn. *)
Lemma create_component_no_border (fill : string) :
  colors !! key = Some fill ->
  colors !! (key +:+ "_border") = None ->
  create_component x y width height text key fontsize w
  = (w, inl (KeyError (key +:+ "_border"))).
Proof.
  intros H1 H2. unfold create_component, bind, getitem. rewrite H1. simpl.
  by rewrite H2.
Qed.

(** Both lookups succeed: the rectangle, then its label, are appended. *)
Lemma create_component_run (fill border : string) :
  colors !! key = Some fill ->
  colors !! (key +:+ "_border") = Some border ->
  create_component x y width height text key fontsize w
  = (append_children [component_box x y width height fill border;
                      component_label x y width height text fontsize] w,
     inr tt).
Proof.
  intros H1 H2. unfold create_component, bind, getitem. rewrite H1. simpl.
  rewrite H2. simpl.
  unfold add_patch, ax_text, add_artist, modify.
  by rewrite append_children_twice.
Qed.

(** The call succeeds exactly when both lookups do. *)
Lemma create_component_succeeds_iff :
  succeeded (create_component x y width height text key fontsize w) = true
  <-> is_Some (colors !! key) /\ is_Some (colors !! (key +:+ "_border")).
Proof.
  split.
  - intros H. destruct (colors !! key) as [fill|] eqn:H1.
    + destruct (colors !! (key +:+ "_border")) as [border|] eqn:H2; [eauto|].
      rewrite (create_component_no_border fill H1 H2) in H. discriminate H.
    + rewrite (create_component_no_fill H1) in H. discriminate H.
  - intros [[fill H1] [border H2]].
    by rewrite (create_component_run fill border H1 H2).
Qed.

End CreateComponent.

Section CreateArrow.

Variables (start end_ : point) (w : World).

(** With both end points in view the connector is appended. *)
Lemma create_arrow_in_view :
  in_view (axes (figure w)) start && in_view (axes (figure w)) end_ = true ->
  create_arrow start end_ w
  = (append_children
       [Arrow (mkConnectionPatch start end_ "data" "data" "->" 5 5 20
                                 "#666666" "#666666" 0.7%float)] w,
     inr tt).
Proof.
  intros H. unfold create_arrow, bind, getitem.
  change (colors !! "arrow") with (Some "#666666"). cbn [ret].
  unfold add_patch. cbn [xyA xyB]. by rewrite H.
Qed.

(** Either the connector is appended, or matplotlib raises on an end point
    that is not in view and the world is as before. *)
Lemma create_arrow_cases :
  create_arrow start end_ w
  = (append_children
       [Arrow (mkConnectionPatch start end_ "data" "data" "->" 5 5 20
                                 "#666666" "#666666" 0.7%float)] w,
     inr tt)
  \/
  (exists e : exn,
     in_view (axes (figure w)) start && in_view (axes (figure w)) end_ = false /\
     path_error w start end_ = Some e /\
     create_arrow start end_ w = (w, inl e)).
Proof.
  unfold create_arrow, bind, getitem.
  change (colors !! "arrow") with (Some "#666666"). cbn [ret].
  unfold add_patch. cbn [xyA xyB].
  destruct (in_view (axes (figure w)) start && in_view (axes (figure w)) end_);
    [by left|].
  destruct (path_error w start end_) as [e|]; [right; by exists e | by left].
Qed.

End CreateArrow.

(* ================================================================== *)
(** * The run *)
(* ================================================================== *)

(** Drawing never fails and does not look at the world it starts from:
    it replaces the figure by [diagram] and leaves files and output alone. *)
Lemma draw_run (w : World) :
  draw w = (mkWorld diagram (fs w) (stdout w) (path_error w), inr tt).
Proof. vm_compute. reflexivity. Qed.

(** Writing the PNG does not change whether the SVG can be opened. *)
Lemma open_svg_after_png (files : gmap string Entry) (e : Entry) :
  open_for_writing (<[png_path := e]> files) svg_path
  = open_for_writing files svg_path.
Proof.
  unfold open_for_writing.
  replace (dirname svg_path) with "public" by reflexivity.
  rewrite !lookup_insert_ne by discriminate. reflexivity.
Qed.

(** What a run from [w] leaves behind and returns, by outcome. *)
Lemma main_run (w : World) :
  main w =
  match outcome (fs w) with
  | NothingWritten e =>
      (mkWorld exported (fs w) (stdout w) (path_error w), inl e)
  | OnlyPng e =>
      (mkWorld exported (<[png_path := png_file]> (fs w)) (stdout w)
               (path_error w),
       inl e)
  | BothWritten =>
      (mkWorld exported
               (<[svg_path := svg_file]> (<[png_path := png_file]> (fs w)))
               (stdout w ++ ["✅ Architecture diagram generated successfully!";
                             "📁 Saved as: public/architecture-diagram.png & .svg"])
               (path_error w),
       inr tt)
  end.
Proof.
  unfold main, bind. rewrite draw_run.
  unfold export, bind, tight_layout, modify, outcome, savefig. cbn [figure fs stdout path_error].
  change (mkFigure (figsize diagram) (axes diagram) true) with exported.
  destruct (open_for_writing (fs w) png_path) as [e|] eqn:Hpng; [reflexivity|].
  cbn [figure fs stdout path_error]. rewrite open_svg_after_png.
  destruct (open_for_writing (fs w) svg_path) as [e|] eqn:Hsvg; [reflexivity|].
  cbn [figure fs stdout path_error]. unfold print, modify. cbn [figure fs stdout path_error].
  by rewrite <- app_assoc.
Qed.

(** Whatever the outcome, the figure left behind is the exported one. *)
Lemma main_figure (w : World) : figure (fst (main w)) = exported.
Proof. rewrite main_run. by destruct (outcome (fs w)). Qed.

Lemma main_drawn (w : World) : drawn (main w) = children (axes exported).
Proof. unfold drawn. by rewrite main_figure. Qed.

(** A run succeeds exactly when both files can be written. *)
Lemma main_succeeded (w : World) :
  succeeded (main w) = true <-> outcome (fs w) = BothWritten.
Proof.
  rewrite main_run. unfold succeeded.
  destruct (outcome (fs w)); simpl; split; congruence.
Qed.

(* ================================================================== *)
(** * The properties of the specification *)
(* ================================================================== *)

(** C1.  Whatever world the script starts from, the figure it builds holds
    exactly 19 node rectangles (6 in the frontend style, 1 state, 4 api,
    3 ai, 5 data) and exactly 20 connector arrows; and when the run
    succeeds, the PNG and the SVG file both hold the rendering of that very
    figure. *)
Theorem C1_primitive_counts (w : World) :
  let l := drawn (main w) in
  length (boxes l) = 19 /\
  length (boxes_of_layer "frontend" l) = 6 /\
  length (boxes_of_layer "state" l) = 1 /\
  length (boxes_of_layer "api" l) = 4 /\
  length (boxes_of_layer "ai" l) = 3 /\
  length (boxes_of_layer "data" l) = 5 /\
  length (arrows l) = 20 /\
  (succeeded (main w) = true ->
   fs (fst (main w)) !! png_path
     = Some (File true (Image "png" png_opts (figure (fst (main w))))) /\
   fs (fst (main w)) !! svg_path
     = Some (File true (Image "svg" svg_opts (figure (fst (main w)))))).
Proof.
  cbv zeta. rewrite main_drawn.
  repeat (split; [vm_compute; reflexivity|]).
  intros H. apply main_succeeded in H. rewrite main_figure, main_run, H.
  cbn [fst fs]. split.
  - rewrite lookup_insert_ne by discriminate. by rewrite lookup_insert_eq.
  - by rewrite lookup_insert_eq.
Qed.

(** C2.  For a key that is absent from the style mapping, [create_component]
    raises [KeyError] on that key and returns the world exactly as it
    received it: no patch and no text has been added. *)
Theorem C2_unknown_key_fails_before_drawing (key : string) :
  colors !! key = None ->
  forall (x y width height : float) (text : string) (fontsize : Z) (w : World),
    create_component x y width height text key fontsize w
    = (w, inl (KeyError key)).
Proof.
  intros H x y width height text fontsize w.
  by apply create_component_no_fill.
Qed.

(** An instance: the key "unknown" of the specification's example. *)
Lemma C2_witness :
  colors !! "unknown" = None /\
  create_component 1 2 3 4 "label" "unknown" 9 world_ready
  = (world_ready, inl (KeyError "unknown")).
Proof.
  split; [reflexivity|].
  apply (C2_unknown_key_fails_before_drawing "unknown"). reflexivity.
Defined.

(** C4.  For each of the style keys frontend, state, api, ai and data,
    [create_component] succeeds and appends a rectangle whose fill colour is
    [colors[key]] and whose border colour is [colors[key + "_border"]],
    followed by its label. *)
Theorem C4_defined_keys_use_mapped_colors (key : string) :
  key ∈ style_keys ->
  forall (x y width height : float) (text : string) (fontsize : Z) (w : World),
  exists fill border : string,
    colors !! key = Some fill /\
    colors !! (key +:+ "_border") = Some border /\
    create_component x y width height text key fontsize w
    = (append_children [component_box x y width height fill border;
                        component_label x y width height text fontsize] w,
       inr tt).
Proof.
  intros Hk x y width height text fontsize w.
  destruct (style_key_is_paired key Hk) as [[fill H1] [border H2]].
  exists fill, border. repeat split; [done..|].
  by apply create_component_run.
Qed.

(** An instance: the Chat API node of the diagram. *)
Lemma C4_witness :
  "api" ∈ style_keys /\
  exists fill border : string,
    colors !! "api" = Some fill /\
    colors !! ("api" +:+ "_border") = Some border /\
    create_component 2 5.5 2.5 1 "Chat API" "api" 9 world_ready
    = (append_children [component_box 2 5.5 2.5 1 fill border;
                        component_label 2 5.5 2.5 1 "Chat API" 9] world_ready,
       inr tt).
Proof.
  assert (H : "api" ∈ style_keys) by (unfold style_keys; set_solver).
  split; [exact H|].
  exact (C4_defined_keys_use_mapped_colors "api" H 2 5.5 2.5 1 "Chat API" 9 world_ready).
Defined.

(** C3, as stated, fails: started in a working directory whose [public]
    directory is writable but where a directory sits at the SVG path, the
    run writes the PNG file, then stops with [IsADirectoryError] on the SVG
    path.  Exactly one of the two image files is there afterwards. *)
Lemma C3_counterexample :
  snd (main world_svg_blocked) = inl (IsADirectoryError svg_path) /\
  is_image (fs world_svg_blocked) png_path = false /\
  is_image (fs (fst (main world_svg_blocked))) png_path = true /\
  is_image (fs (fst (main world_svg_blocked))) svg_path = false /\
  ~ all_or_nothing world_svg_blocked.
Proof.
  repeat (split; [vm_compute; reflexivity|]).
  unfold all_or_nothing. vm_compute. discriminate.
Qed.

(** C3, amended.  The two exports run one after the other, PNG first, and
    nothing is rolled back.  A run ends in one of three ways: the PNG cannot
    be opened, the run stops with that error and the file system is
    unchanged; or the PNG is written but the SVG cannot be opened, the run
    stops with that error and only the PNG has been written; or both files
    are written and the run succeeds.  So the SVG is never written without
    the PNG.  In particular, when the [public] directory does not exist the
    run stops with [FileNotFoundError] and writes nothing. *)
Theorem C3_export_is_sequential (w : World) :
  let r := main w in
  let before := fs w in
  let after := fs (fst r) in
  ((exists e, open_for_writing before png_path = Some e /\
              snd r = inl e /\ after = before)
   \/
   (exists e, open_for_writing before png_path = None /\
              open_for_writing before svg_path = Some e /\
              snd r = inl e /\ after = <[png_path := png_file]> before)
   \/
   (open_for_writing before png_path = None /\
    open_for_writing before svg_path = None /\
    snd r = inr tt /\
    after = <[svg_path := svg_file]> (<[png_path := png_file]> before)))
  /\
  (before !! "public" = None ->
   snd r = inl (FileNotFoundError png_path) /\ after = before).
Proof.
  cbv zeta. rewrite main_run. unfold outcome. split.
  - destruct (open_for_writing (fs w) png_path) as [e|] eqn:Hpng.
    + left. by exists e.
    + destruct (open_for_writing (fs w) svg_path) as [e|] eqn:Hsvg.
      * right; left. by exists e.
      * right; right. done.
  - intros Hdir. unfold open_for_writing.
    replace (dirname png_path) with "public" by reflexivity.
    by rewrite Hdir.
Qed.


(** C6.  The axes span [0,16] x [0,12], and every node rectangle the script
    places lies within them: [x >= 0], [y >= 0], [x + width <= 16] and
    [y + height <= 12].  This holds both as Python computes the sums and
    comparisons on floats and for the exact rational values of the
    coordinates. *)
Theorem C6_nodes_within_extent (w : World) :
  let fig := figure (fst (main w)) in
  xlim (axes fig) = (0, 16)%float /\
  ylim (axes fig) = (0, 12)%float /\
  Forall (in_extent (axes fig)) (boxes (children (axes fig))) /\
  Forall in_extent_exact (boxes (children (axes fig))).
Proof.
  cbv zeta. rewrite main_figure.
  split; [reflexivity|]. split; [reflexivity|]. split.
  - vm_compute. repeat constructor.
  - let l := eval vm_compute in (boxes (children (axes exported))) in
    change (Forall in_extent_exact l).
    repeat (constructor; [vm_compute; repeat split; discriminate|]).
    constructor.
Qed.

(** C7.  The layer heights are 9.5, 7.5, 5.5, 3.5 and 1.5, strictly
    decreasing in the order frontend, state, api, ai, data; every node
    rectangle carries the fill colour of one of the five layers; and every
    rectangle of a layer has that layer's height as its [y]. *)
Theorem C7_layers_top_to_bottom (w : World) :
  (frontend_y = 9.5 /\ state_y = 7.5 /\ api_y = 5.5 /\ ai_y = 3.5 /\
   data_y = 1.5)%float /\
  (py_gt frontend_y state_y /\ py_gt state_y api_y /\ py_gt api_y ai_y /\
   py_gt ai_y data_y) /\
  Forall (fun p => exists key, key ∈ style_keys /\
                               colors !! key = Some (facecolor p))
         (boxes (drawn (main w))) /\
  (forall key ly, (key, ly) ∈ layers ->
     Forall (fun p => snd (xy p) = ly) (boxes_of_layer key (drawn (main w)))).
Proof.
  rewrite main_drawn.
  split; [repeat split|]. split; [repeat split|]. split.
  - let l := eval vm_compute in (boxes (children (axes exported))) in
    change (boxes (children (axes exported))) with l.
    repeat (constructor;
            [ first [ exists "frontend"; split; [|vm_compute; reflexivity]
                    | exists "state"; split; [|vm_compute; reflexivity]
                    | exists "api"; split; [|vm_compute; reflexivity]
                    | exists "ai"; split; [|vm_compute; reflexivity]
                    | exists "data"; split; [|vm_compute; reflexivity] ];
              unfold style_keys;
              repeat first [apply list_elem_of_here | apply list_elem_of_further]
            | ]).
    constructor.
  - intros key ly H. unfold layers in H.
    repeat (apply elem_of_cons in H as [H | H];
            [ injection H as -> ->;
              match goal with
              | |- Forall _ ?bs =>
                  let l := eval vm_compute in bs in change bs with l
              end;
              repeat constructor
            | ]).
    apply elem_of_nil in H. destruct H.
Qed.

(** C8.  When the run succeeds, the file system has changed in exactly two
    places: [public/architecture-diagram.png] now holds the figure rendered
    as PNG at 300 DPI, with a tight bounding box and a white background, and
    [public/architecture-diagram.svg] holds the same figure rendered as SVG
    with a tight bounding box and a white background; and exactly two lines
    have been added to standard output. *)
Theorem C8_success_outputs (w : World) :
  succeeded (main w) = true ->
  let w' := fst (main w) in
  fs w' = <["public/architecture-diagram.svg" :=
              File true (Image "svg"
                (mkSaveOpts (Some "svg") None (Some "tight") (Some "white")
                            (Some "none"))
                (figure w'))]>
          (<["public/architecture-diagram.png" :=
              File true (Image "png"
                (mkSaveOpts None (Some 300%Z) (Some "tight") (Some "white")
                            (Some "none"))
                (figure w'))]>
           (fs w)) /\
  stdout w' = stdout w ++
              ["✅ Architecture diagram generated successfully!";
               "📁 Saved as: public/architecture-diagram.png & .svg"] /\
  figure w' = exported.
Proof.
  intros H. cbv zeta. rewrite main_figure.
  apply main_succeeded in H. rewrite main_run, H. cbn [fst fs stdout].
  repeat split.
Qed.

(** An instance: a run started where [public] exists and is writable. *)
Lemma C8_witness :
  succeeded (main world_ready) = true /\
  stdout (fst (main world_ready))
  = ["✅ Architecture diagram generated successfully!";
     "📁 Saved as: public/architecture-diagram.png & .svg"].
Proof.
  assert (H : succeeded (main world_ready) = true) by (vm_compute; reflexivity).
  split; [exact H|].
  exact (proj1 (proj2 (C8_success_outputs world_ready H))).
Defined.

(** C9.  Every connector [create_arrow] draws is a single-headed arrow with
    the same shrink at both ends and the same transparency, whatever the
    two end points: a call either appends exactly one connector from
    [start] to [end], with arrow style "->", a shrink of 5 at both ends and
    an alpha of 0.7, or it raises and appends nothing.  It does append the
    connector whenever both end points are in view.  The finished diagram
    holds twenty connectors, all with that style, shrink and alpha. *)
Theorem C9_arrow_style (start end_ : point) (w : World) :
  let r := create_arrow start end_ w in
  ((exists c : ConnectionPatch,
      r = (append_children [Arrow c] w, inr tt) /\
      xyA c = start /\ xyB c = end_ /\
      arrowstyle c = "->" /\ shrinkA c = 5%Z /\ shrinkB c = 5%Z /\
      alpha c = 0.7%float)
   \/
   (exists e : exn, r = (w, inl e))) /\
  (in_view (axes (figure w)) start = true ->
   in_view (axes (figure w)) end_ = true ->
   succeeded r = true) /\
  length (arrows (drawn (main w))) = 20 /\
  Forall (fun c => arrowstyle c = "->" /\ shrinkA c = 5%Z /\ shrinkB c = 5%Z /\
                   alpha c = 0.7%float)
         (arrows (drawn (main w))).
Proof.
  cbv zeta. split; [|split; [|split]].
  - destruct (create_arrow_cases start end_ w) as [-> | (e & _ & _ & ->)].
    + left. eexists. split; [reflexivity|]. repeat split.
    + right. by exists e.
  - intros H1 H2. rewrite create_arrow_in_view; [reflexivity|].
    by rewrite H1, H2.
  - rewrite main_drawn. vm_compute. reflexivity.
  - rewrite main_drawn.
    let l := eval vm_compute in (arrows (children (axes exported))) in
    change (arrows (children (axes exported))) with l.
    repeat (constructor; [repeat split|]). constructor.
Qed.

(** C10.  The mapping has an entry for "arrow" but none for "arrow_border",
    so [create_component] called with "arrow" passes the first lookup and
    raises [KeyError] on "arrow_border", drawing nothing.  The keys with
    which [create_component] succeeds are exactly frontend, state, api, ai
    and data; these are exactly the keys [k] for which both [k] and
    [k + "_border"] are in the mapping; and they form a strict subset of the
    keys of the mapping. *)
Theorem C10_arrow_has_no_border :
  colors !! "arrow" = Some "#666666" /\
  colors !! "arrow_border" = None /\
  (forall (x y width height : float) (text : string) (fontsize : Z) (w : World),
     create_component x y width height text "arrow" fontsize w
     = (w, inl (KeyError "arrow_border"))) /\
  (forall (key : string) (x y width height : float) (text : string)
          (fontsize : Z) (w : World),
     succeeded (create_component x y width height text key fontsize w) = true
     <-> key ∈ style_keys) /\
  (forall key : string,
     key ∈ style_keys
     <-> is_Some (colors !! key) /\ is_Some (colors !! (key +:+ "_border"))) /\
  (list_to_set style_keys : gset string) ⊂ dom colors.
Proof.
  assert (Hpaired : forall key : string,
             key ∈ style_keys
             <-> is_Some (colors !! key) /\ is_Some (colors !! (key +:+ "_border"))).
  { intros key. split; [apply style_key_is_paired|].
    intros [H1 H2]. by apply paired_key_is_style_key. }
  assert (Harrow : colors !! "arrow" = Some "#666666") by (vm_compute; reflexivity).
  assert (Hborder : colors !! ("arrow" +:+ "_border") = None)
    by (vm_compute; reflexivity).
  split; [exact Harrow|]. split; [exact Hborder|]. split.
  { intros x y width height text fontsize w.
    exact (create_component_no_border x y width height text "arrow" fontsize w
             "#666666" Harrow Hborder). }
  split.
  { intros key x y width height text fontsize w.
    rewrite create_component_succeeds_iff. symmetry. apply Hpaired. }
  split; [exact Hpaired|].
  split.
  - intros key Hk. apply elem_of_list_to_set in Hk.
    apply elem_of_dom. by apply Hpaired in Hk as [Hk _].
  - intros Hsub.
    assert (Hin : "arrow" ∈ (list_to_set style_keys : gset string)).
    { apply Hsub, elem_of_dom. rewrite Harrow. by eexists. }
    apply elem_of_list_to_set, Hpaired in Hin as [_ [v Hv]].
    rewrite Hborder in Hv. discriminate Hv.
Qed.

(* ================================================================== *)
(** * Further properties of the helpers *)
(* ================================================================== *)

Lemma boxes_app (l1 l2 : list Artist) : boxes (l1 ++ l2) = boxes l1 ++ boxes l2.
Proof.
  induction l1 as [|a l1 IH]; [reflexivity|].
  destruct a; simpl; by rewrite IH.
Qed.

Lemma arrows_app (l1 l2 : list Artist) : arrows (l1 ++ l2) = arrows l1 ++ arrows l2.
Proof.
  induction l1 as [|a l1 IH]; [reflexivity|].
  destruct a; simpl; by rewrite IH.
Qed.

Lemma labels_app (l1 l2 : list Artist) : labels (l1 ++ l2) = labels l1 ++ labels l2.
Proof.
  induction l1 as [|a l1 IH]; [reflexivity|].
  destruct a; simpl; by rewrite IH.
Qed.

Lemma drawn_append_children {A} (l : list Artist) (w : World) (a : exn + A) :
  drawn (append_children l w, a) = children (axes (figure w)) ++ l.
Proof. reflexivity. Qed.

(** X1.  Whatever key it is given, [create_component] ends in one of three
    ways.  With one of the five style keys it appends the rectangle in the
    mapped colours and its label.  With a key that is absent from the
    mapping it raises [KeyError] on that key.  With a key that is in the
    mapping but is no style key (a border key or "arrow") it raises
    [KeyError] on the key with "_border" appended.  In both failing cases the
    world is exactly as before the call. *)
Theorem X1_create_component_outcomes
    (x y width height : float) (text key : string) (fontsize : Z) (w : World) :
  let r := create_component x y width height text key fontsize w in
  (key ∈ style_keys /\
   exists fill border : string,
     colors !! key = Some fill /\ colors !! (key +:+ "_border") = Some border /\
     r = (append_children [component_box x y width height fill border;
                           component_label x y width height text fontsize] w,
          inr tt))
  \/
  (colors !! key = None /\ r = (w, inl (KeyError key)))
  \/
  (is_Some (colors !! key) /\ (key ∉ style_keys) /\
   r = (w, inl (KeyError (key +:+ "_border")))).
Proof.
  cbv zeta.
  destruct (colors !! key) as [fill|] eqn:H1.
  - destruct (colors !! (key +:+ "_border")) as [border|] eqn:H2.
    + left. split.
      * apply paired_key_is_style_key; rewrite ?H1, ?H2; (by eexists).
      * exists fill, border. repeat split. by apply create_component_run.
    + right; right. split; [by eexists|]. split.
      * intros Hk. apply style_key_is_paired in Hk as [_ [b Hb]]. congruence.
      * by apply create_component_no_border with fill.
  - right; left. split; [reflexivity|]. by apply create_component_no_fill.
Qed.

(** X2.  How the helpers extend the drawing.  A [create_component] call that
    succeeds adds one rectangle and one text after those already drawn and
    no connector.  A [create_arrow] call that succeeds adds one connector
    after those already drawn, and no rectangle and no text.  A call of
    either helper that raises adds nothing.  Nothing that was drawn before
    is removed or reordered. *)
Theorem X2_helpers_extend_by_kind
    (x y width height : float) (text key : string) (fontsize : Z)
    (start end_ : point) (w : World) :
  let before := children (axes (figure w)) in
  let rc := create_component x y width height text key fontsize w in
  let ra := create_arrow start end_ w in
  (if succeeded rc
   then (exists p t, boxes (drawn rc) = boxes before ++ [p] /\
                     labels (drawn rc) = labels before ++ [t] /\
                     xy p = (x, y) /\ text_s t = text)
        /\ arrows (drawn rc) = arrows before
   else drawn rc = before)
  /\
  (if succeeded ra
   then (exists c, arrows (drawn ra) = arrows before ++ [c] /\
                   xyA c = start /\ xyB c = end_)
        /\ boxes (drawn ra) = boxes before
        /\ labels (drawn ra) = labels before
   else drawn ra = before).
Proof.
  cbv zeta. split.
  - destruct (colors !! key) as [fill|] eqn:H1;
      [|by rewrite create_component_no_fill].
    destruct (colors !! (key +:+ "_border")) as [border|] eqn:H2;
      [|by rewrite (create_component_no_border _ _ _ _ _ _ _ _ fill)].
    rewrite (create_component_run _ _ _ _ _ _ _ _ fill border H1 H2).
    unfold succeeded. cbn [snd].
    rewrite drawn_append_children, boxes_app, arrows_app, labels_app.
    split; [|by rewrite app_nil_r].
    eexists _, _. repeat split.
  - destruct (create_arrow_cases start end_ w) as [-> | (e & _ & _ & ->)];
      [|reflexivity].
    unfold succeeded. cbn [snd].
    rewrite drawn_append_children, boxes_app, arrows_app, labels_app.
    split; [|split; by rewrite app_nil_r].
    eexists. repeat split.
Qed.

(* ================================================================== *)
(** * Further properties of the finished diagram *)
(* ================================================================== *)

(** X3.  In the finished diagram every node rectangle is immediately
    followed by a text, and that text is anchored at the exact centre of the
    rectangle, centred on its anchor both ways, bold, wrapped and of size 9:
    the sums [x + width/2] and [y + height/2] are computed without rounding
    for every node of the script. *)
Theorem X3_labels_centred_in_nodes (w : World) :
  let l := drawn (main w) in
  map fst (captioned l) = boxes l /\
  Forall (fun pt => centred (fst pt) (snd pt) = true /\
                    weight (snd pt) = Some "bold" /\
                    wrap (snd pt) = true /\
                    fontsize (snd pt) = 9%Z)
         (captioned l).
Proof.
  cbv zeta. rewrite main_drawn. split; [vm_compute; reflexivity|].
  let l := eval vm_compute in (captioned (children (axes exported))) in
  change (captioned (children (axes exported))) with l.
  repeat (constructor; [repeat split; vm_compute; reflexivity|]).
  constructor.
Qed.

(** X4.  No two node rectangles of the finished diagram overlap: any two of
    them are at least 1/2 apart horizontally or at least 1 apart vertically,
    in exact arithmetic.  The padding of 0.05 that the box style adds on
    every side therefore never makes two nodes touch. *)
Theorem X4_nodes_keep_distance (w : World) :
  ForallOrdPairs (fun p q => separated p q = true) (boxes (drawn (main w))).
Proof.
  rewrite main_drawn.
  let l := eval vm_compute in (boxes (children (axes exported))) in
  change (boxes (children (axes exported))) with l.
  repeat first
    [ apply FOP_nil
    | apply FOP_cons
    | apply List.Forall_nil
    | apply List.Forall_cons; [vm_compute; reflexivity|] ].
Qed.

(** X5.  Every connector of the finished diagram joins two different nodes:
    each of its two end points lies on exactly one node rectangle.  Numbering
    the nodes in drawing order from 0, the twenty connectors join the pairs
    listed; by layer they lead frontend to state (3), frontend to api (2),
    state to api (1), api to api (3), api to ai (3), data to data (4), ai to
    data (2) and, for the two return flows, data to api and ai to api. *)
Theorem X5_arrows_join_nodes (w : World) :
  let l := drawn (main w) in
  map (joins (boxes l)) (arrows l)
  = map Some
      [(0, 6); (2, 6); (3, 6); (0, 7); (5, 7); (6, 8); (7, 8); (8, 9);
       (8, 10); (7, 11); (8, 12); (8, 13); (14, 15); (15, 16); (16, 17);
       (17, 18); (12, 16); (13, 18); (16, 8); (11, 7)] /\
  map (flow (boxes l)) (arrows l)
  = map Some
      [("frontend", "state"); ("frontend", "state"); ("frontend", "state");
       ("frontend", "api"); ("frontend", "api");
       ("state", "api");
       ("api", "api"); ("api", "api"); ("api", "api");
       ("api", "ai"); ("api", "ai"); ("api", "ai");
       ("data", "data"); ("data", "data"); ("data", "data"); ("data", "data");
       ("ai", "data"); ("ai", "data");
       ("data", "api"); ("ai", "api")] /\
  Forall (fun c => exists i j, joins (boxes l) c = Some (i, j) /\ i <> j)
         (arrows l).
Proof.
  cbv zeta. rewrite main_drawn.
  split; [vm_compute; reflexivity|]. split; [vm_compute; reflexivity|].
  let bs := eval vm_compute in (boxes (children (axes exported))) in
  change (boxes (children (axes exported))) with bs.
  let l := eval vm_compute in (arrows (children (axes exported))) in
  change (arrows (children (axes exported))) with l.
  repeat (constructor;
          [eexists _, _; split; [vm_compute; reflexivity | discriminate]|]).
  constructor.
Qed.

(** X10.  Each of the five layers has exactly one caption in its border
    colour.  The caption is left-aligned, stands at the height [y + 0.5] of
    its layer, which is the height of the labels of all nodes of that layer,
    and lies to the left of every node of the diagram. *)
Theorem X10_layer_captions_aligned (w : World) (key : string) (ly : float) :
  (key, ly) ∈ layers ->
  let l := drawn (main w) in
  exists t : Text,
    captions_of_layer key l = [t] /\
    ha t = "left" /\ va t = "center" /\
    text_y t = (ly + 0.5)%float /\
    Forall (fun pt => layer_of (fst pt) = Some key -> text_y (snd pt) = text_y t)
           (captioned l) /\
    Forall (fun p => py_gt (fst (xy p)) (text_x t)) (boxes l).
Proof.
  intros H. cbv zeta. rewrite main_drawn. unfold layers in H.
  let cs := eval vm_compute in (captioned (children (axes exported))) in
  change (captioned (children (axes exported))) with cs.
  let bs := eval vm_compute in (boxes (children (axes exported))) in
  change (boxes (children (axes exported))) with bs.
  repeat (apply elem_of_cons in H as [H | H];
          [ injection H as -> ->;
            eexists; split; [vm_compute; reflexivity|];
            split; [reflexivity|]; split; [reflexivity|];
            split; [reflexivity|]; split;
            [ repeat (constructor;
                      [vm_compute; intros Hk;
                       first [reflexivity | discriminate Hk]|]);
              constructor
            | repeat (constructor; [vm_compute; reflexivity|]); constructor ]
          | ]).
  apply elem_of_nil in H. destruct H.
Qed.

Lemma X10_witness :
  ("state", state_y) ∈ layers /\
  exists t : Text,
    captions_of_layer "state" (drawn (main world_ready)) = [t] /\
    text_y t = (state_y + 0.5)%float.
Proof.
  assert (H : ("state", state_y) ∈ layers).
  { unfold layers. apply list_elem_of_further, list_elem_of_here. }
  split; [exact H|].
  destruct (X10_layer_captions_aligned world_ready "state" state_y H)
    as (t & H1 & _ & _ & H2 & _).
  exists t. split; [exact H1 | exact H2].
Defined.

(* ================================================================== *)
(** * Further properties of the run *)
(* ================================================================== *)

(** A failed open reports the path it was asked to open. *)
Lemma open_for_writing_error (files : gmap string Entry) (p : string) (e : exn) :
  open_for_writing files p = Some e ->
  e = FileNotFoundError p \/ e = NotADirectoryError p \/
  e = IsADirectoryError p \/ e = PermissionError p.
Proof.
  unfold open_for_writing. intros H.
  destruct (files !! dirname p) as [[dw|fw c]|];
    [destruct (files !! p) as [[dw'|[] c]|]; [| | |destruct dw] | |];
    naive_solver.
Qed.



(** X6.  A run changes the file system only at its two output paths: every
    other path holds after the run what it held before, whether the run
    succeeds or fails.  In particular the run creates no directory and
    removes nothing. *)
Theorem X6_run_touches_only_outputs (w : World) (q : string) :
  q <> png_path -> q <> svg_path ->
  fs (fst (main w)) !! q = fs w !! q.
Proof.
  intros Hpng Hsvg. rewrite main_run.
  destruct (outcome (fs w)); cbn [fst fs];
    by rewrite ?lookup_insert_ne by done.
Qed.

Lemma X6_witness :
  "public" <> png_path /\ "public" <> svg_path /\
  fs (fst (main world_ready)) !! "public" = fs world_ready !! "public".
Proof.
  assert (H1 : "public" <> png_path) by discriminate.
  assert (H2 : "public" <> svg_path) by discriminate.
  split; [exact H1|]. split; [exact H2|].
  exact (X6_run_touches_only_outputs world_ready "public" H1 H2).
Defined.



(** X9.  The drawing part never raises: every key the script looks up is in
    the mapping and every connector has both ends in view.  From every
    world it ends normally and leaves the files and the output as they
    were; so a run never ends with [KeyError] or [StopIteration]. *)
Theorem X9_drawing_never_raises (w : World) :
  snd (draw w) = inr tt /\
  fs (fst (draw w)) = fs w /\
  stdout (fst (draw w)) = stdout w /\
  (forall key : string, snd (main w) <> inl (KeyError key)) /\
  snd (main w) <> inl StopIteration.
Proof.
  rewrite draw_run. repeat (split; [reflexivity|]).
  rewrite main_run. unfold outcome.
  destruct (open_for_writing (fs w) png_path) as [e1|] eqn:Hpng.
  - apply open_for_writing_error in Hpng.
    destruct Hpng as [-> | [-> | [-> | ->]]]; split; try intros key; discriminate.
  - destruct (open_for_writing (fs w) svg_path) as [e2|] eqn:Hsvg.
    + apply open_for_writing_error in Hsvg.
      destruct Hsvg as [-> | [-> | [-> | ->]]];
        split; try intros key; discriminate.
    + split; try intros key; discriminate.
Qed.
